(** * Model selection and diagnosis request of the symptom assistant (p1.py)

    A shallow embedding of the logic of [p1.py]: the start-up sequence
    (lines 6-19 and 59), [choose_best_model] (lines 30-56), the two
    definitions of [get_diagnosis] (lines 61-91 and 94-158) and the button
    callback [diagnose] (lines 177-189), together with the small
    fragment of Python they rely on: dynamically typed values, truthiness,
    [getattr] with a default, the [in] operator, [len], indexing,
    [str.strip], insertion-ordered dictionaries and [try]/[except Exception].

    Conventions of the model.
    - A Python [str] is a [string]; every character stands for the code point
      of the same number (so the model covers code points below 256).
    - An exception carries its class name, the text [str(e)] yields and
      whether it is an instance of [Exception], which is what
      [except Exception] catches; [KeyboardInterrupt] and [SystemExit] are
      not.
    - The external client is not part of the program: the outcome of
      [client.models.list()] is a parameter (an exception, or an iterable
      that yields model objects and then either stops or raises), and so is
      the behaviour of [client.models.generate_content]. *)

From Stdlib Require Import List String Ascii Bool ZArith NArith Lia Permutation.
Import ListNotations.

Local Open Scope string_scope.
Local Open Scope list_scope.

(** ** Exceptions and the outcome of a Python computation *)

Record exn : Type := mkExn {
  exn_class : string;
  exn_msg : string;
  is_Exception : bool
}.

(** [str(e)], as interpolated by an f-string. *)
Definition py_str_exn (e : exn) : string := exn_msg e.

Definition TypeError (msg : string) : exn := mkExn "TypeError" msg true.
Definition IndexError (msg : string) : exn := mkExn "IndexError" msg true.
Definition StopIteration : exn := mkExn "StopIteration" EmptyString true.
Definition KeyboardInterrupt : exn :=
  mkExn "KeyboardInterrupt" EmptyString false.

Inductive result (A : Type) : Type :=
| Ok (a : A)
| Raise (e : exn).

Arguments Ok {A} a.
Arguments Raise {A} e.

Definition bind {A B : Type} (c : result A) (k : A -> result B) : result B :=
  match c with
  | Ok a => k a
  | Raise e => Raise e
  end.

Notation "x <- c ;; k" := (bind c (fun x => k))
  (at level 61, c at next level, right associativity).

(** [try: body except Exception as e: handler(e)]: an exception that is
    no instance of [Exception] is not caught. *)
Definition try_except {A : Type} (body : result A) (handler : exn -> result A)
  : result A :=
  match body with
  | Ok a => Ok a
  | Raise e => if is_Exception e then handler e else Raise e
  end.

(** ** Python values *)

(** Objects carry their class name, an identity and their instance
    attributes; they define no special methods of their own. *)
#[warnings="-register-all"] Inductive value : Type :=
| VNone
| VBool (b : bool)
| VInt (n : Z)
| VStr (s : string)
| VList (items : list value)
| VObj (cls : string) (id : N) (attrs : list (string * value)).

Definition type_name (v : value) : string :=
  match v with
  | VNone => "NoneType"
  | VBool _ => "bool"
  | VInt _ => "int"
  | VStr _ => "str"
  | VList _ => "list"
  | VObj cls _ _ => cls
  end.

(** Truth value testing, as done by [if], [not], [and], [or]. *)
Definition truthy (v : value) : bool :=
  match v with
  | VNone => false
  | VBool b => b
  | VInt n => negb (n =? 0)%Z
  | VStr s => negb (s =? EmptyString)
  | VList items => match items with [] => false | _ :: _ => true end
  | VObj _ _ _ => true
  end.

(** [a or b]. *)
Definition py_or (a b : value) : value := if truthy a then a else b.

Fixpoint lookup_attr (attrs : list (string * value)) (name : string)
  : option value :=
  match attrs with
  | [] => None
  | (k, v) :: rest => if k =? name then Some v else lookup_attr rest name
  end.

(** [getattr(o, name, default)] for the attribute names the program probes
    ([name], [supported_generation_methods], [text], [candidates],
    [content]): none of them exists on the built-in types. *)
Definition py_getattr (o : value) (name : string) (default : value) : value :=
  match o with
  | VObj _ _ attrs =>
      match lookup_attr attrs name with
      | Some v => v
      | None => default
      end
  | _ => default
  end.

(** [isinstance(v, str)]. *)
Definition isinstance_str (v : value) : bool :=
  match v with
  | VStr _ => true
  | _ => false
  end.

(** ** Strings *)

(** [needle in haystack] on two strings: substring test. *)
Fixpoint str_contains (needle haystack : string) : bool :=
  String.prefix needle haystack
  || match haystack with
     | EmptyString => false
     | String _ rest => str_contains needle rest
     end.

(** [str.isspace] on one character (code points below 256). *)
Definition is_space (c : ascii) : bool :=
  let n := N_of_ascii c in
  ((9 <=? n) && (n <=? 13) || (28 <=? n) && (n <=? 32)
   || (n =? 133) || (n =? 160))%N.

Fixpoint lstrip (s : string) : string :=
  match s with
  | EmptyString => EmptyString
  | String c rest => if is_space c then lstrip rest else s
  end.

Fixpoint rstrip (s : string) : string :=
  match s with
  | EmptyString => EmptyString
  | String c rest =>
      match rstrip rest with
      | EmptyString => if is_space c then EmptyString else String c EmptyString
      | kept => String c kept
      end
  end.

(** [s.strip()]. *)
Definition strip (s : string) : string := rstrip (lstrip s).

(** ** The [in] operator, [len] and indexing *)

(** [x == y] for a string [x]. *)
Definition str_eq_value (x : string) (y : value) : bool :=
  match y with
  | VStr s => x =? s
  | _ => false
  end.

(** [needle in container] for a string [needle]. *)
Definition py_in (needle : string) (container : value) : result bool :=
  match container with
  | VStr s => Ok (str_contains needle s)
  | VList items => Ok (existsb (str_eq_value needle) items)
  | _ => Raise (TypeError ("argument of type '" ++ type_name container
                           ++ "' is not iterable"))
  end.

(** [len(v)]. *)
Definition py_len (v : value) : result nat :=
  match v with
  | VStr s => Ok (String.length s)
  | VList items => Ok (List.length items)
  | _ => Raise (TypeError ("object of type '" ++ type_name v
                           ++ "' has no len()"))
  end.

(** [v[0]]. *)
Definition py_first (v : value) : result value :=
  match v with
  | VStr (String c _) => Ok (VStr (String c EmptyString))
  | VStr EmptyString => Raise (IndexError "string index out of range")
  | VList (x :: _) => Ok x
  | VList [] => Raise (IndexError "list index out of range")
  | _ => Raise (TypeError ("'" ++ type_name v
                           ++ "' object is not subscriptable"))
  end.

(** ** Dictionaries (insertion ordered) *)

Definition dict : Type := list (value * value).

Definition hashable (k : value) : bool :=
  match k with
  | VList _ => false
  | _ => true
  end.

(** Equality of two hashable keys: numbers compare by value ([True == 1]),
    strings by content, objects by identity. *)
Definition key_eqb (a b : value) : bool :=
  match a, b with
  | VNone, VNone => true
  | VBool x, VBool y => Bool.eqb x y
  | VBool x, VInt n => (n =? Z.b2z x)%Z
  | VInt n, VBool x => (n =? Z.b2z x)%Z
  | VInt m, VInt n => (m =? n)%Z
  | VStr s, VStr t => s =? t
  | VObj _ i _, VObj _ j _ => (i =? j)%N
  | _, _ => false
  end.

(** An existing key keeps its place (and its key object); a new key goes
    last. *)
Fixpoint dict_store (d : dict) (k v : value) : dict :=
  match d with
  | [] => [(k, v)]
  | (k', v') :: rest =>
      if key_eqb k' k then (k', v) :: rest else (k', v') :: dict_store rest k v
  end.

(** [d[k] = v]. *)
Definition dict_setitem (d : dict) (k v : value) : result dict :=
  if hashable k then Ok (dict_store d k v)
  else Raise (TypeError ("unhashable type: '" ++ type_name k ++ "'")).

(** [k in d] for a string key. *)
Definition dict_has (d : dict) (k : string) : bool :=
  existsb (fun kv => key_eqb (fst kv) (VStr k)) d.

(** [next(iter(d.keys()))]. *)
Definition dict_first_key (d : dict) : result value :=
  match d with
  | [] => Raise StopIteration
  | (k, _) :: _ => Ok k
  end.

(** ** Model selection (p1.py, lines 21-56) *)

Definition PREFERRED_MODELS : list string :=
  [ "models/gemini-2.5-pro";
    "models/gemini-2.5-flash";
    "models/gemini-2.5-flash-lite";
    "models/gemini-1.5-pro";
    "models/gemini-1.5-pro-latest" ].

(** The loop of lines 39-46, started with the dictionary [valid]. *)
Fixpoint collect_valid (available : list value) (valid : dict) : result dict :=
  match available with
  | [] => Ok valid
  | m :: rest =>
      let methods := py_getattr m "supported_generation_methods" VNone in
      let name := py_getattr m "name" VNone in
      if negb (truthy name) then collect_valid rest valid
      else
        supports <- (if truthy methods then py_in "generateContent" methods
                     else Ok false) ;;
        if (supports : bool) then
          valid' <- dict_setitem valid name (VBool true) ;;
          collect_valid rest valid'
        else collect_valid rest valid
  end.

(** What [client.models.list()] returns: an iterable that yields model
    objects and then either stops or raises (a page that cannot be
    fetched). *)
Record iterable : Type := mkIterable {
  yielded : list value;
  failure : option exn
}.

(** An iterable that runs to its end. *)
Definition complete (items : list value) : iterable := mkIterable items None.

(** The [for] statement of line 39 on the iterable: the body runs on each
    item yielded; when the iterator raises instead of stopping, the
    exception leaves the loop. *)
Definition for_each_model (available : iterable) (valid : dict) : result dict :=
  valid' <- collect_valid (yielded available) valid ;;
  match failure available with
  | Some e => Raise e
  | None => Ok valid'
  end.

(** [choose_best_model()], given what [client.models.list()] does.  Only
    the call itself is inside the [try] of lines 31-35. *)
Definition choose_best_model (listing : result iterable) : result value :=
  match listing with
  | Raise e =>
      if is_Exception e then Ok (VStr "models/gemini-2.5-pro") else Raise e
  | Ok available =>
      valid <- for_each_model available [] ;;
      match find (dict_has valid) PREFERRED_MODELS with
      | Some pref => Ok (VStr pref)
      | None =>
          match valid with
          | _ :: _ => dict_first_key valid
          | [] => Ok (VStr "models/gemini-2.5-pro")
          end
      end
  end.

(** The module global of line 59, [CHOSEN_MODEL = choose_best_model()]. *)
Record globals : Type := mkGlobals { CHOSEN_MODEL : value }.

(** Module start-up: the one assignment to [CHOSEN_MODEL].  An exception
    escaping [choose_best_model] aborts the import. *)
Definition module_init (listing : result iterable) : result globals :=
  chosen <- choose_best_model listing ;;
  Ok (mkGlobals chosen).

(** ** Diagnosis request (p1.py, lines 61-158) *)

Definition nl : string := String "010"%char EmptyString.
Definition dq : string := String "034"%char EmptyString.

(** ["\n".join(lines)]. *)
Fixpoint join_lines (lines : list string) : string :=
  match lines with
  | [] => EmptyString
  | [l] => l
  | l :: rest => l ++ nl ++ join_lines rest
  end.

(** The f-string of lines 62-72 (first definition). *)
Definition prompt_first (symptoms : string) : string :=
  join_lines
    [ ("You are a medical assistant. A user reports the following symptoms: "
         ++ symptoms)%string;
      EmptyString;
      "Provide:";
      "1. A likely diagnosis (mention uncertainty if not definitive).";
      "2. Suggested treatment (non-prescription/general advice; recommend seeing a doctor for serious concerns).";
      "3. Precautions to take.";
      "Format the answer with clear headings like:";
      "Diagnosis:";
      "Treatment:";
      "Precautions:";
      EmptyString ].

Definition or_quoted (label alternative : string) : string :=
  label ++ " or " ++ dq ++ alternative ++ dq ++ ">".

(** The f-string of lines 95-141 (second definition, the one in force). *)
Definition prompt (symptoms : string) : string :=
  join_lines
    [ EmptyString;
      ("You are a medical assistant. The user reports the following symptoms: "
         ++ symptoms)%string;
      EmptyString;
      "Your response must follow this exact format and structure, with no markdown, no asterisks, and no bold text. Use only plain text labels. Do not add extra commentary before or after.";
      EmptyString;
      "Main Advice:";
      "<one short paragraph in plain English summarizing the advice>";
      EmptyString;
      "Priority Assessment:";
      "<Low / Medium / High Priority based on urgency>";
      EmptyString;
      "#checking/ testing the activity logs by commits.";
      EmptyString;
      "Medical Assessment:";
      "<likely diagnosis or suspected cause>";
      EmptyString;
      "Recommended Treatment:";
      or_quoted "Oral Medication: <name" "Not recommended";
      or_quoted "  Dosage: <dosage" "-";
      or_quoted "  Frequency: <frequency" "-";
      or_quoted "  Duration: <duration" "-";
      EmptyString;
      or_quoted "Inhaler: <name" "Not recommended";
      or_quoted "  Dosage: <dosage" "-";
      or_quoted "  Frequency: <frequency" "-";
      or_quoted "  Duration: <duration" "-";
      EmptyString;
      or_quoted "Ointment: <name" "Not recommended";
      or_quoted "  Dosage: <dosage" "-";
      or_quoted "  Frequency: <frequency" "-";
      or_quoted "  Duration: <duration" "-";
      EmptyString;
      "Important Precautions:";
      "- <precaution 1>";
      "- <precaution 2>";
      "- <precaution 3>";
      "(Include at least 3)";
      EmptyString;
      "Follow-up Care:";
      "- <follow-up step 1>";
      "- <follow-up step 2>";
      "- <follow-up step 3>";
      "(Include at least 3)";
      EmptyString;
      "Medical Disclaimer:";
      "This is not a substitute for professional medical advice.";
      "    " ].

(** The generation endpoint.  A request is what the program passes to
    [client.models.generate_content]; the [world] is the sequence of requests
    sent so far (oldest first); the endpoint answers a request, possibly
    depending on the history, with a response object or an exception. *)
Record request : Type := mkRequest { req_model : value; req_contents : string }.

Definition world : Type := list request.

Definition endpoint : Type := world -> request -> result value.

Definition generate_content (api : endpoint) (w : world)
  (model : value) (contents : string) : world * result value :=
  let r := mkRequest model contents in
  (w ++ [r], api w r).

Definition UNEXPECTED_FORMAT : string :=
  "Received unexpected response format from Gemini API.".

Definition error_text (e : exn) : string :=
  "Error contacting Gemini API:" ++ nl ++ py_str_exn e.

(** First definition of [get_diagnosis] (lines 61-91); the module global
    [CHOSEN_MODEL] is read and passed along, never assigned. *)
Definition get_diagnosis_first (g : globals) (api : endpoint)
  (w : world) (symptoms : string) : world * result value :=
  let prompt := prompt_first symptoms in
  let (w', outcome) := generate_content api w (CHOSEN_MODEL g) prompt in
  (w',
   try_except
     (response <- outcome ;;
      let text := py_getattr response "text" VNone in
      match text with
      | VStr t => Ok (VStr (strip t))
      | _ =>
          let candidates := py_getattr response "candidates" VNone in
          some <- (if truthy candidates
                   then n <- py_len candidates ;; Ok (0 <? n)%nat
                   else Ok false) ;;
          if (some : bool) then
            first <- py_first candidates ;;
            let content := py_or (py_getattr first "content" VNone)
                                 (py_getattr first "text" VNone) in
            match content with
            | VStr c => Ok (VStr (strip c))
            | _ => Ok (VStr UNEXPECTED_FORMAT)
            end
          else Ok (VStr UNEXPECTED_FORMAT)
      end)
     (fun e => Ok (VStr (error_text e)))).

(** Second definition of [get_diagnosis] (lines 94-158): the binding the
    rest of the module sees. *)
Definition get_diagnosis (g : globals) (api : endpoint)
  (w : world) (symptoms : string) : world * result value :=
  let prompt := prompt symptoms in
  let (w', outcome) := generate_content api w (CHOSEN_MODEL g) prompt in
  (w',
   try_except
     (response <- outcome ;;
      let text := py_getattr response "text" VNone in
      match text with
      | VStr t => Ok (VStr (strip t))
      | _ =>
          let candidates := py_getattr response "candidates" VNone in
          some <- (if truthy candidates
                   then n <- py_len candidates ;; Ok (0 <? n)%nat
                   else Ok false) ;;
          if (some : bool) then
            first <- py_first candidates ;;
            let content := py_or (py_getattr first "content" VNone)
                                 (py_getattr first "text" VNone) in
            match content with
            | VStr c => Ok (VStr (strip c))
            | _ => Ok (VStr UNEXPECTED_FORMAT)
            end
          else Ok (VStr UNEXPECTED_FORMAT)
      end)
     (fun e => Ok (VStr (error_text e)))).

(** ** The running application (p1.py, lines 177-189)

    The state a session evolves: the module globals, the text shown in the
    output box and the requests sent so far. *)
Record app : Type := mkApp {
  app_globals : globals;
  output_box : string;
  sent : world
}.

(** [diagnose()], the button callback, on the text found in the input box.
    Blank input only shows a warning.  The last branch is the callback cut
    short by an exception that escapes [get_diagnosis], after the request
    was sent and before the box is touched. *)
Definition diagnose (api : endpoint) (a : app) (entered : string) : app :=
  let symptoms := strip entered in
  if negb (truthy (VStr symptoms)) then a
  else
    let (w', result) := get_diagnosis (app_globals a) api (sent a) symptoms in
    match result with
    | Ok (VStr shown) => mkApp (app_globals a) shown w'
    | _ => mkApp (app_globals a) (output_box a) w'
    end.

(** A session: the callback run on each entered text in turn. *)
Definition run_session (api : endpoint) (a : app) (entered : list string) : app :=
  fold_left (diagnose api) entered a.

(** ** Vocabulary of the specification *)

Definition entry_name (m : value) : value := py_getattr m "name" VNone.

Definition entry_methods (m : value) : value :=
  py_getattr m "supported_generation_methods" VNone.

(** A catalog entry as the external interface describes it: the name, when
    exposed, is a string, and the capability attribute, when exposed, is a
    collection. *)
Definition well_shaped (m : value) : bool :=
  match entry_name m with
  | VNone | VStr _ => true
  | _ => false
  end
  && match entry_methods m with
     | VNone | VList _ => true
     | _ => false
     end.

(** An entry of the expected types: its name, when truthy, is a string and
    its capability attribute, when truthy, is a list. *)
Definition plain_entry (m : value) : bool :=
  (negb (truthy (entry_name m)) || isinstance_str (entry_name m))
  && (negb (truthy (entry_methods m))
      || match entry_methods m with
         | VList _ => true
         | _ => false
         end).

(** A listing that raises an instance of [Exception], or runs to its end
    over entries of the expected types. *)
Definition plain_listing (listing : result iterable) : bool :=
  match listing with
  | Raise e => is_Exception e
  | Ok available =>
      forallb plain_entry (yielded available)
      && match failure available with
         | None => true
         | Some _ => false
         end
  end.

(** The name under which an entry counts as supported, if it does: a
    non-empty name and a capability collection holding [generateContent]. *)
Definition advertised_name (m : value) : option string :=
  match entry_name m, entry_methods m with
  | VStr n, VList items =>
      if negb (n =? EmptyString)
         && existsb (str_eq_value "generateContent") items
      then Some n
      else None
  | _, _ => None
  end.

(** The supported set of a catalog, as the list of its members. *)
Definition supported_set (available : list value) : list string :=
  flat_map (fun m => match advertised_name m with
                     | Some n => [n]
                     | None => []
                     end) available.

Fixpoint all_space (s : string) : bool :=
  match s with
  | EmptyString => true
  | String c rest => is_space c && all_space rest
  end.

Definition starts_with_space (s : string) : bool :=
  match s with
  | EmptyString => false
  | String c _ => is_space c
  end.

Fixpoint ends_with_space (s : string) : bool :=
  match s with
  | EmptyString => false
  | String c EmptyString => is_space c
  | String _ rest => ends_with_space rest
  end.

(** The string a candidate result offers: its [content] when that is a
    non-empty string, else its [text] when [content] is absent or falsy. *)
Definition usable (first : value) (t : string) : Prop :=
  (py_getattr first "content" VNone = VStr t /\ t <> EmptyString)
  \/ (truthy (py_getattr first "content" VNone) = false
      /\ py_getattr first "text" VNone = VStr t).

(** ** Sample inputs *)

(** A small catalog used to exercise the statements below: two supported
    preferred models listed in reverse priority order, one entry without a
    capability attribute and one without a name. *)
Definition sample_catalog : list value :=
  [ VObj "Model" 1 [("name", VStr "models/gemini-2.5-flash");
                    ("supported_generation_methods",
                     VList [VStr "generateContent"; VStr "countTokens"])];
    VObj "Model" 2 [("name", VStr "models/embedding-001")];
    VObj "Model" 3 [("supported_generation_methods",
                     VList [VStr "generateContent"])];
    VObj "Model" 4 [("name", VStr "models/gemini-2.5-pro");
                    ("supported_generation_methods",
                     VList [VStr "generateContent"])] ].

(** A catalog whose only supported models are outside the preference list. *)
Definition legacy_catalog : list value :=
  [ VObj "Model" 1 [("name", VStr "models/embedding-001");
                    ("supported_generation_methods", VList [VStr "embedContent"])];
    VObj "Model" 2 [("name", VStr "models/gemini-1.0-pro");
                    ("supported_generation_methods",
                     VList [VStr "generateContent"])];
    VObj "Model" 3 [("name", VStr "models/gemini-pro-vision");
                    ("supported_generation_methods",
                     VList [VStr "generateContent"])] ].


Definition sample_globals : globals :=
  mkGlobals (VStr "models/gemini-2.5-pro").

(** An endpoint that fails every call with a timeout. *)
Definition timeout_endpoint : endpoint :=
  fun _ _ => Raise (mkExn "TimeoutError" "timeout" true).

(** An endpoint whose every call is interrupted from the keyboard. *)
Definition interrupted_endpoint : endpoint :=
  fun _ _ => Raise KeyboardInterrupt.



(** A catalog whose only supported entry is named by a number. *)
Definition numbered_catalog : list value :=
  [ VObj "Model" 1 [("name", VInt 7);
                    ("supported_generation_methods",
                     VList [VStr "generateContent"])] ].

(** A catalog of expected types with falsy attributes that are neither
    [None] nor a list. *)
Definition sparse_catalog : list value :=
  [ VObj "Model" 1 [("name", VStr "models/gemini-1.5-pro");
                    ("supported_generation_methods", VBool false)];
    VObj "Model" 2 [("name", VInt 0);
                    ("supported_generation_methods",
                     VList [VStr "generateContent"])];
    VObj "Model" 3 [("name", VStr "models/gemini-2.5-flash-lite");
                    ("supported_generation_methods",
                     VList [VStr "countTokens"; VStr "generateContent"])] ].


(** An endpoint that answers every call with the same response. *)
Definition answering (response : value) : endpoint :=
  fun _ _ => Ok response.

(** A response whose direct text carries surrounding whitespace. *)
Definition padded_response : value :=
  VObj "GenerateContentResponse" 10
    [("text", VStr (String " " (String "009" ("Diagnosis: flu" ++ nl))))].

Definition doctor_candidate : value :=
  VObj "Candidate" 12 [("content", VStr "see a doctor")].

(** A response without direct text whose first candidate has a string
    content. *)
Definition doctor_response : value :=
  VObj "GenerateContentResponse" 11
    [("text", VNone); ("candidates", VList [doctor_candidate])].

(** A candidate whose content is a structured object and whose text is a
    string. *)
Definition shadowed_candidate : value :=
  VObj "Candidate" 14
    [("content", VObj "Content" 15 [("parts", VList []); ("role", VStr "model")]);
     ("text", VStr "see a doctor")].

Definition shadowed_response : value :=
  VObj "GenerateContentResponse" 13
    [("text", VNone); ("candidates", VList [shadowed_candidate])].

(** ** Process start-up (p1.py, lines 6-19 and 59) *)







(** ** Further vocabulary *)

(** An entry the loop of lines 39-46 copes with: its name is falsy, or its
    capability attribute is falsy, or the capability attribute is a string
    or a list and the name can be a dictionary key. *)
Definition tolerated (m : value) : bool :=
  negb (truthy (entry_name m))
  || negb (truthy (entry_methods m))
  || match entry_methods m with
     | VStr _ | VList _ => hashable (entry_name m)
     | _ => false
     end.

Definition is_supported (m : value) : bool :=
  match advertised_name m with
  | Some _ => true
  | None => false
  end.

(** [valid[n] = True] for a string [n]. *)
Definition store_name (valid : dict) (n : string) : dict :=
  dict_store valid (VStr n) (VBool true).

(** The entered texts of a session that are not blank. *)
Definition non_blank (entered : list string) : list string :=
  filter (fun e => negb (all_space e)) entered.

(** A request built by [get_diagnosis] from a stripped, non-empty text. *)
Definition clean_request (r : request) : Prop :=
  exists symptoms,
    req_contents r = prompt symptoms
    /\ symptoms <> EmptyString
    /\ starts_with_space symptoms = false
    /\ ends_with_space symptoms = false.


Definition flagged_response : value :=
  VObj "GenerateContentResponse" 20
    [("text", VNone); ("candidates", VInt 3)].

(** A catalog with entries of unexpected shapes that the loop still copes
    with. *)
Definition odd_catalog : list value :=
  [ VObj "Model" 1 [("name", VInt 7);
                    ("supported_generation_methods", VStr "generateContent")];
    VObj "Model" 2 [("name", VList [VStr "models/x"]);
                    ("supported_generation_methods", VInt 0)];
    VStr "not an object" ].

(** * Properties *)

(** ** Stripping *)

Lemma lstrip_spec (s : string) :
  exists l, s = (l ++ lstrip s)%string
            /\ all_space l = true
            /\ starts_with_space (lstrip s) = false.
Proof.
  induction s as [|c rest IH]; simpl.
  - exists EmptyString. auto.
  - destruct (is_space c) eqn:Hc.
    + destruct IH as (l & Heq & Hl & Hs).
      exists (String c l). simpl. rewrite Hc, Hl.
      repeat split; auto. congruence.
    + exists EmptyString. simpl. auto.
Qed.

Lemma rstrip_spec (s : string) :
  exists r, s = (rstrip s ++ r)%string
            /\ all_space r = true
            /\ ends_with_space (rstrip s) = false.
Proof.
  induction s as [|c rest IH]; simpl.
  - exists EmptyString. auto.
  - destruct IH as (r & Heq & Hr & He).
    destruct (rstrip rest) as [|c' kept] eqn:Hk.
    + simpl in Heq. subst rest.
      destruct (is_space c) eqn:Hc.
      * exists (String c r). simpl. rewrite Hc, Hr. auto.
      * exists r. simpl. rewrite Hc. auto.
    + exists r. simpl. repeat split; auto.
      rewrite Heq at 1. reflexivity.
Qed.

Lemma rstrip_keeps_start (s : string) :
  starts_with_space s = false -> starts_with_space (rstrip s) = false.
Proof.
  destruct s as [|c rest]; simpl; auto.
  intros Hc. destruct (rstrip rest); [rewrite Hc|]; simpl; auto.
Qed.

Lemma append_assoc (a b c : string) :
  (a ++ (b ++ c))%string = ((a ++ b) ++ c)%string.
Proof.
  induction a as [|x a IH]; simpl; [reflexivity | now rewrite IH].
Qed.

Lemma strip_spec (t : string) :
  exists l r, t = (l ++ strip t ++ r)%string
              /\ all_space l = true /\ all_space r = true
              /\ starts_with_space (strip t) = false
              /\ ends_with_space (strip t) = false.
Proof.
  unfold strip.
  destruct (lstrip_spec t) as (l & Hl & Hla & Hls).
  destruct (rstrip_spec (lstrip t)) as (r & Hr & Hra & Hre).
  exists l, r. repeat split; auto.
  - rewrite <- Hr. exact Hl.
  - now apply rstrip_keeps_start.
Qed.

(** ** Dictionaries with string keys *)

Lemma key_eqb_str (k : value) (n : string) :
  key_eqb k (VStr n) = true <-> k = VStr n.
Proof.
  destruct k; simpl; split; intros H; try discriminate.
  - apply String.eqb_eq in H. now subst.
  - injection H as ->. apply String.eqb_refl.
Qed.

Lemma dict_has_iff (d : dict) (n : string) :
  dict_has d n = true <-> In (VStr n) (map fst d).
Proof.
  unfold dict_has. rewrite existsb_exists. split.
  - intros ((k, v) & Hin & Hk). apply key_eqb_str in Hk. simpl in Hk. subst k.
    apply in_map_iff. exists (VStr n, v). auto.
  - intros Hin. apply in_map_iff in Hin. destruct Hin as ((k, v) & Hk & Hin).
    simpl in Hk. subst k. exists (VStr n, v). split; auto.
    simpl. apply String.eqb_refl.
Qed.

Lemma dict_store_keys (d : dict) (n : string) (v : value) :
  forall k, In k (map fst (dict_store d (VStr n) v))
            <-> In k (map fst d) \/ k = VStr n.
Proof.
  induction d as [|(k', v') rest IH]; intros k; simpl.
  - intuition.
  - destruct (key_eqb k' (VStr n)) eqn:Hk; simpl.
    + apply key_eqb_str in Hk. subst k'. intuition.
    + rewrite IH. intuition.
Qed.

(** ** The supported set built by the loop *)

Lemma collect_valid_cons (m : value) (rest : list value) (valid : dict) :
  collect_valid (m :: rest) valid =
  if negb (truthy (entry_name m)) then collect_valid rest valid
  else
    supports <- (if truthy (entry_methods m)
                 then py_in "generateContent" (entry_methods m)
                 else Ok false) ;;
    if (supports : bool) then
      valid' <- dict_setitem valid (entry_name m) (VBool true) ;;
      collect_valid rest valid'
    else collect_valid rest valid.
Proof. reflexivity. Qed.

Lemma supported_set_cons (m : value) (rest : list value) :
  supported_set (m :: rest) =
  match advertised_name m with
  | Some n => [n]
  | None => []
  end ++ supported_set rest.
Proof. reflexivity. Qed.

(** On well-shaped entries the loop never raises, and the keys it adds are
    exactly the members of the supported set. *)
Lemma collect_valid_spec (available : list value) :
  forall valid,
    forallb well_shaped available = true ->
    exists valid',
      collect_valid available valid = Ok valid'
      /\ forall k, In k (map fst valid') <->
                   In k (map fst valid)
                   \/ exists n, k = VStr n /\ In n (supported_set available).
Proof.
  induction available as [|m rest IH]; intros valid Hws.
  - exists valid. split; [reflexivity|].
    intros k. simpl. split; [auto | intros [H | (n & _ & [])]; auto].
  - simpl in Hws. apply andb_prop in Hws as [Hm Hrest].
    unfold well_shaped in Hm. apply andb_prop in Hm as [Hname Hmeth].
    rewrite collect_valid_cons, supported_set_cons. unfold advertised_name.
    assert (Hskip : exists valid',
               collect_valid rest valid = Ok valid'
               /\ forall k, In k (map fst valid') <->
                            In k (map fst valid)
                            \/ exists n, k = VStr n
                                         /\ In n ([] ++ supported_set rest))
      by (apply IH; assumption).
    destruct (entry_methods m) as [ | | | |items| ]; try discriminate;
      (destruct (entry_name m) as [ | | |n| | ]; try discriminate);
      simpl; try exact Hskip;
      (destruct (n =? EmptyString) eqn:Hn; simpl; try exact Hskip).
    destruct items as [|x xs]; try exact Hskip.
    cbv beta iota delta [bind].
    destruct (existsb (str_eq_value "generateContent") (x :: xs));
      try exact Hskip.
    unfold dict_setitem. simpl hashable. cbv iota.
    destruct (IH (dict_store valid (VStr n) (VBool true)) Hrest)
      as (valid' & Hrun & Hkeys).
    exists valid'. split; [exact Hrun|].
    intros k. rewrite Hkeys, dict_store_keys. simpl.
    split.
    + intros [[H | H] | (n' & Hk & Hin)]; eauto 6.
    + intros [H | (n' & Hk & [Heq | Hin])]; subst; eauto 6.
Qed.

Lemma in_supported_set (available : list value) (n : string) :
  In n (supported_set available) <->
  exists m, In m available /\ advertised_name m = Some n.
Proof.
  unfold supported_set. rewrite in_flat_map. split.
  - intros (m & Hm & Hn). exists m. split; [exact Hm|].
    destruct (advertised_name m) as [n'|]; simpl in Hn; [|contradiction].
    destruct Hn as [-> | []]. reflexivity.
  - intros (m & Hm & Hn). exists m. split; [exact Hm|].
    rewrite Hn. simpl. auto.
Qed.

Lemma supported_name_nonempty (available : list value) (n : string) :
  In n (supported_set available) -> n <> EmptyString.
Proof.
  rewrite in_supported_set. intros (m & _ & Hn) ->.
  unfold advertised_name in Hn.
  destruct (entry_name m) as [ | | |s| | ]; try discriminate.
  destruct (entry_methods m); try discriminate.
  destruct (s =? EmptyString) eqn:Hs; simpl in Hn; try discriminate.
  destruct (existsb _ _); try discriminate.
  injection Hn as ->. simpl in Hs. discriminate.
Qed.


(** The dictionary the loop leaves behind, started empty. *)
Lemma valid_keys (available : list value) :
  forallb well_shaped available = true ->
  exists valid,
    collect_valid available [] = Ok valid
    /\ (forall n, dict_has valid n = true <-> In n (supported_set available))
    /\ (forall k, In k (map fst valid) ->
                  exists n, k = VStr n /\ In n (supported_set available)).
Proof.
  intros Hws.
  destruct (collect_valid_spec available [] Hws) as (valid & Hrun & Hkeys).
  exists valid. split; [exact Hrun|]. split.
  - intros n. rewrite dict_has_iff, Hkeys. simpl. split.
    + intros [[] | (n' & Heq & Hin)]. injection Heq as ->. exact Hin.
    + intros Hin. right. eauto.
  - intros k Hk. apply Hkeys in Hk. destruct Hk as [[] | H]. exact H.
Qed.

(** ** Entries of the expected types *)

Lemma well_shaped_plain (m : value) :
  well_shaped m = true -> plain_entry m = true.
Proof.
  unfold well_shaped, plain_entry.
  destruct (entry_name m); destruct (entry_methods m); simpl;
    try discriminate; intros _; rewrite ?orb_true_r; reflexivity.
Qed.

(** One turn of the loop on an entry of the expected types. *)
Lemma collect_valid_plain_step (m : value) (rest : list value) (valid : dict) :
  plain_entry m = true ->
  collect_valid (m :: rest) valid =
  collect_valid rest match advertised_name m with
                     | Some n => store_name valid n
                     | None => valid
                     end.
Proof.
  intros Hm. unfold plain_entry in Hm. apply andb_prop in Hm as [Hname Hmeth].
  rewrite collect_valid_cons. unfold advertised_name, store_name.
  destruct (entry_name m) as [ |nflag|nnum|n|nitems|nc ni na];
    simpl truthy in *; simpl isinstance_str in *;
    try discriminate;
    try (destruct nflag; try discriminate);
    try (destruct (nnum =? 0)%Z; try discriminate);
    try (destruct nitems; try discriminate);
    try reflexivity.
  destruct (n =? EmptyString); simpl;
    [destruct (entry_methods m); reflexivity|].
  destruct (entry_methods m) as [ |mflag|mnum|mtext|items|mc mi ma];
    simpl truthy in *;
    try discriminate;
    try (destruct mflag; try discriminate);
    try (destruct (mnum =? 0)%Z; try discriminate);
    try (destruct (mtext =? EmptyString); try discriminate);
    try reflexivity.
  destruct items as [|x xs]; [reflexivity|].
  simpl. cbv beta iota delta [bind].
  destruct (str_eq_value "generateContent" x
            || existsb (str_eq_value "generateContent") xs); reflexivity.
Qed.

(** The dictionary the loop builds on entries of the expected types: the
    supported names stored in catalog order. *)
Lemma collect_valid_plain (available : list value) :
  forall valid,
    forallb plain_entry available = true ->
    collect_valid available valid
    = Ok (fold_left store_name (supported_set available) valid).
Proof.
  induction available as [|m rest IH]; intros valid Hplain; [reflexivity|].
  simpl in Hplain. apply andb_prop in Hplain as [Hm Hrest].
  rewrite (collect_valid_plain_step _ _ _ Hm), supported_set_cons,
    fold_left_app.
  rewrite (IH _ Hrest). destruct (advertised_name m); reflexivity.
Qed.

Lemma fold_store_keys (names : list string) :
  forall valid k,
    In k (map fst (fold_left store_name names valid)) <->
    In k (map fst valid) \/ exists n, k = VStr n /\ In n names.
Proof.
  induction names as [|n rest IH]; intros valid k; simpl.
  - split; [auto | intros [H | (n & _ & [])]; exact H].
  - rewrite IH. unfold store_name. rewrite dict_store_keys. split.
    + intros [[H | H] | (n' & Hk & Hin)]; eauto 6.
    + intros [H | (n' & Hk & [Heq | Hin])]; subst; eauto 6.
Qed.

(** The dictionary the loop leaves behind on entries of the expected
    types, started empty. *)
Lemma plain_keys (available : list value) :
  forallb plain_entry available = true ->
  exists valid,
    collect_valid available [] = Ok valid
    /\ (forall n, dict_has valid n = true <-> In n (supported_set available))
    /\ (forall k, In k (map fst valid) ->
                  exists n, k = VStr n /\ In n (supported_set available)).
Proof.
  intros Hplain. eexists. split; [apply collect_valid_plain, Hplain|]. split.
  - intros n. rewrite dict_has_iff, fold_store_keys. simpl. split.
    + intros [[] | (n' & Heq & Hin)]. injection Heq as ->. exact Hin.
    + intros Hin. right. eauto.
  - intros k Hk. apply fold_store_keys in Hk. destruct Hk as [[] | H]. exact H.
Qed.


(** ** Walking the preference list *)



Lemma preferred_nonempty (p : string) :
  In p PREFERRED_MODELS -> p <> EmptyString.
Proof.
  unfold PREFERRED_MODELS. simpl. intuition (subst; discriminate).
Qed.

Lemma choose_best_model_ok (available : list value) (valid : dict) :
  collect_valid available [] = Ok valid ->
  choose_best_model (Ok (complete available)) =
  match find (dict_has valid) PREFERRED_MODELS with
  | Some pref => Ok (VStr pref)
  | None =>
      match valid with
      | _ :: _ => dict_first_key valid
      | [] => Ok (VStr "models/gemini-2.5-pro")
      end
  end.
Proof.
  intros Hrun. unfold choose_best_model, for_each_model. simpl.
  rewrite Hrun. reflexivity.
Qed.


(** On a listing that raises an [Exception] or runs to its end over
    entries of the expected types, the selection returns a non-empty
    string: a preferred identifier or a member of the supported set. *)
Lemma choose_best_model_string (listing : result iterable) :
  plain_listing listing = true ->
  exists chosen,
    choose_best_model listing = Ok (VStr chosen)
    /\ chosen <> EmptyString.
Proof.
  destruct listing as [[available [e|]] | e]; intros Hws; simpl in Hws;
    [rewrite andb_false_r in Hws; discriminate | rewrite andb_true_r in Hws|].
  - destruct (plain_keys available Hws) as (valid & Hrun & Hhas & Hkeys).
    change (mkIterable available None) with (complete available).
    rewrite (choose_best_model_ok _ _ Hrun).
    destruct (find (dict_has valid) PREFERRED_MODELS) as [p|] eqn:Hfind.
    + exists p. split; [reflexivity|].
      apply find_some in Hfind. apply preferred_nonempty, Hfind.
    + destruct valid as [|(k, v) rest]; simpl.
      * eexists. split; [reflexivity | discriminate].
      * destruct (Hkeys k) as (n & -> & Hn); [simpl; auto|].
        exists n. split; [reflexivity|].
        eapply supported_name_nonempty; eassumption.
  - simpl. rewrite Hws. eexists. split; [reflexivity | discriminate].
Qed.

(** ** Sessions *)

Lemma diagnose_step (api : endpoint) (a : app) (entered : string) :
  app_globals (diagnose api a entered) = app_globals a
  /\ exists extra,
       sent (diagnose api a entered) = sent a ++ extra
       /\ Forall (fun r => req_model r = CHOSEN_MODEL (app_globals a)) extra.
Proof.
  unfold diagnose.
  destruct (negb (truthy (VStr (strip entered)))).
  - split; [reflexivity|]. exists []. rewrite app_nil_r. auto.
  - unfold get_diagnosis, generate_content.
    match goal with
    | |- context [try_except ?b ?h] => destruct (try_except b h) as [[]|]
    end; simpl; (split; [reflexivity|]); eexists; (split; [reflexivity|]);
      repeat constructor.
Qed.

Lemma run_session_invariant (api : endpoint) (entered : list string) :
  forall a,
    Forall (fun r => req_model r = CHOSEN_MODEL (app_globals a)) (sent a) ->
    app_globals (run_session api a entered) = app_globals a
    /\ Forall (fun r => req_model r = CHOSEN_MODEL (app_globals a))
              (sent (run_session api a entered)).
Proof.
  unfold run_session.
  induction entered as [|e rest IH]; intros a Hsent; simpl; [auto|].
  destruct (diagnose_step api a e) as (Hg & extra & Hs & Hextra).
  destruct (IH (diagnose api a e)) as (Hg' & Hs').
  - rewrite Hg, Hs. apply Forall_app. auto.
  - rewrite Hg in *. split; [congruence | exact Hs'].
Qed.

(** * The model selector *)










(** C5 (what the code does on a truthy capability attribute that is no
    collection).  An entry with a name whose capability attribute is the
    flag [True] makes the membership test of line 45 raise a [TypeError],
    which leaves [choose_best_model] uncaught: the entry is not treated as
    unsupported. *)
Theorem choose_best_model_raises_on_flag :
  exists e,
    choose_best_model
      (Ok (complete
             [VObj "Model" 1 [("name", VStr "models/gemini-2.5-pro");
                              ("supported_generation_methods", VBool true)]]))
    = Raise e
    /\ exn_class e = "TypeError".
Proof.
  eexists. split; reflexivity.
Qed.

(** C9 as stated fails: the value returned is not a string for every
    catalog content, here for a supported entry named by a number. *)
Lemma chosen_model_not_always_a_string :
  ~ (forall listing,
        exists chosen,
          choose_best_model listing = Ok (VStr chosen)
          /\ chosen <> EmptyString).
Proof.
  intros claim.
  destruct (claim (Ok (complete numbered_catalog))) as (chosen & Hrun & _).
  vm_compute in Hrun. discriminate.
Qed.

(** C9, amended.  When the call listing the catalog raises an instance of
    [Exception], or the listing runs to its end over entries of the
    expected types, the value [choose_best_model] returns is a non-empty
    string; it is what start-up assigns to [CHOSEN_MODEL], and throughout
    every session started from it the global keeps that value and every
    generation request sent carries it as its model. *)
Theorem chosen_model_nonempty_and_fixed :
  forall listing,
    plain_listing listing = true ->
    exists chosen,
      chosen <> EmptyString
      /\ choose_best_model listing = Ok (VStr chosen)
      /\ module_init listing = Ok (mkGlobals (VStr chosen))
      /\ forall api entered,
           let final :=
             run_session api (mkApp (mkGlobals (VStr chosen)) EmptyString [])
                         entered in
           CHOSEN_MODEL (app_globals final) = VStr chosen
           /\ Forall (fun r => req_model r = VStr chosen) (sent final).
Proof.
  intros listing Hws.
  destruct (choose_best_model_string listing Hws) as (chosen & Hrun & Hne).
  exists chosen. split; [exact Hne|]. split; [exact Hrun|]. split.
  - unfold module_init. rewrite Hrun. reflexivity.
  - intros api entered final. subst final.
    destruct (run_session_invariant api entered
                (mkApp (mkGlobals (VStr chosen)) EmptyString []))
      as (Hg & Hs); [constructor|].
    rewrite Hg. split; [reflexivity | exact Hs].
Qed.

Lemma chosen_model_nonempty_and_fixed_witness :
  exists chosen,
    chosen <> EmptyString
    /\ choose_best_model (Ok (complete sparse_catalog)) = Ok (VStr chosen)
    /\ module_init (Ok (complete sparse_catalog))
       = Ok (mkGlobals (VStr chosen))
    /\ forall api entered,
         let final :=
           run_session api (mkApp (mkGlobals (VStr chosen)) EmptyString [])
                       entered in
         CHOSEN_MODEL (app_globals final) = VStr chosen
         /\ Forall (fun r => req_model r = VStr chosen) (sent final).
Proof.
  apply (chosen_model_nonempty_and_fixed (Ok (complete sparse_catalog))).
  reflexivity.
Defined.

(** * The diagnosis requester *)

(** What [get_diagnosis] returns once the endpoint has answered. *)
Lemma get_diagnosis_returned (g : globals) (api : endpoint) (w : world)
  (symptoms : string) :
  snd (get_diagnosis g api w symptoms) =
  try_except
    (response <- api w (mkRequest (CHOSEN_MODEL g) (prompt symptoms)) ;;
     match py_getattr response "text" VNone with
     | VStr t => Ok (VStr (strip t))
     | _ =>
         some <- (if truthy (py_getattr response "candidates" VNone)
                  then n <- py_len (py_getattr response "candidates" VNone) ;;
                       Ok (0 <? n)%nat
                  else Ok false) ;;
         if (some : bool) then
           first <- py_first (py_getattr response "candidates" VNone) ;;
           match py_or (py_getattr first "content" VNone)
                       (py_getattr first "text" VNone) with
           | VStr c => Ok (VStr (strip c))
           | _ => Ok (VStr UNEXPECTED_FORMAT)
           end
         else Ok (VStr UNEXPECTED_FORMAT)
     end)
    (fun e => Ok (VStr (error_text e))).
Proof. reflexivity. Qed.

Lemma try_except_string (body : result value) (handler : exn -> string) :
  (forall v, body = Ok v -> exists s, v = VStr s) ->
  (forall e, body = Raise e -> is_Exception e = true) ->
  exists s, try_except body (fun e => Ok (VStr (handler e))) = Ok (VStr s).
Proof.
  intros Hbody Hcaught. destruct body as [v|e]; simpl.
  - destruct (Hbody v eq_refl) as (s & ->). eauto.
  - rewrite (Hcaught e eq_refl). eauto.
Qed.

Lemma py_len_exception (v : value) (e : exn) :
  py_len v = Raise e -> is_Exception e = true.
Proof. destruct v; simpl; intros [= <-]; reflexivity. Qed.

Lemma py_first_exception (v : value) (e : exn) :
  py_first v = Raise e -> is_Exception e = true.
Proof.
  destruct v as [ | | |[|c s]|[|x xs]| ]; simpl; intros [= <-]; reflexivity.
Qed.

(** When the endpoint answers or raises an [Exception], [get_diagnosis]
    returns a string. *)
Lemma get_diagnosis_string (g : globals) (api : endpoint) (w : world)
  (symptoms : string) :
  (forall e, api w (mkRequest (CHOSEN_MODEL g) (prompt symptoms)) = Raise e ->
             is_Exception e = true) ->
  exists s, snd (get_diagnosis g api w symptoms) = Ok (VStr s).
Proof.
  intros Hapi. rewrite get_diagnosis_returned. apply try_except_string.
  - destruct (api w _) as [response|e]; [|discriminate].
    cbn [bind]. intros v.
    destruct (py_getattr response "text" VNone);
      try (intros [= <-]; eauto; fail);
      (destruct (truthy (py_getattr response "candidates" VNone));
       [ destruct (py_len (py_getattr response "candidates" VNone))
           as [count|err]; [|discriminate]; cbn [bind];
         destruct (0 <? count)%nat;
         [ destruct (py_first (py_getattr response "candidates" VNone))
             as [first|err]; [|discriminate]; cbn [bind];
           destruct (py_or _ _)
         | ]
       | cbn [bind] ]);
      intros [= <-]; eauto.
  - destruct (api w _) as [response|raised] eqn:Hout; cbn [bind].
    + intros e.
      destruct (py_getattr response "text" VNone); try discriminate;
        (destruct (truthy (py_getattr response "candidates" VNone));
         [ destruct (py_len (py_getattr response "candidates" VNone))
             as [count|err] eqn:Hlen; cbn [bind];
           [ destruct (0 <? count)%nat;
             [ destruct (py_first (py_getattr response "candidates" VNone))
                 as [first|err] eqn:Hfirst; cbn [bind];
               [ destruct (py_or _ _); discriminate
               | intros [= <-]; eapply py_first_exception; eassumption ]
             | discriminate ]
           | intros [= <-]; eapply py_len_exception; eassumption ]
         | cbn [bind]; discriminate ]).
    + intros e [= <-]. apply Hapi. reflexivity.
Qed.

(** C1 as stated fails: an exception that is no instance of [Exception],
    such as [KeyboardInterrupt], passes through the [except Exception] of
    line 157 and leaves [get_diagnosis]. *)
Lemma get_diagnosis_lets_interrupt_through :
  ~ (forall g api w symptoms,
        exists s, snd (get_diagnosis g api w symptoms) = Ok (VStr s)).
Proof.
  intros claim.
  destruct (claim sample_globals interrupted_endpoint [] "fever and cough")
    as (s & Hrun).
  vm_compute in Hrun. discriminate.
Qed.

(** C1, amended.  For every symptom string and every behaviour of the
    generation endpoint that is a response of any shape or an exception
    that is an instance of [Exception], [get_diagnosis] returns a string
    and raises nothing; when the endpoint raises such an exception [e], the
    string returned is ["Error contacting Gemini API:"], a newline and
    [str(e)]; when [str(e)] is ["timeout"], it contains both
    ["Error contacting"] and ["timeout"]. *)
Theorem get_diagnosis_never_raises :
  forall g api w symptoms,
    (forall e,
        api w (mkRequest (CHOSEN_MODEL g) (prompt symptoms)) = Raise e ->
        is_Exception e = true) ->
    (exists s, snd (get_diagnosis g api w symptoms) = Ok (VStr s))
    /\ forall e,
         api w (mkRequest (CHOSEN_MODEL g) (prompt symptoms)) = Raise e ->
         snd (get_diagnosis g api w symptoms)
         = Ok (VStr ("Error contacting Gemini API:" ++ nl ++ py_str_exn e))
         /\ (py_str_exn e = "timeout" ->
             str_contains "Error contacting"
               ("Error contacting Gemini API:" ++ nl ++ py_str_exn e) = true
             /\ str_contains "timeout"
                  ("Error contacting Gemini API:" ++ nl ++ py_str_exn e)
                = true).
Proof.
  intros g api w symptoms Hapi. split; [now apply get_diagnosis_string|].
  intros e He. split.
  - rewrite get_diagnosis_returned, He. simpl. rewrite (Hapi e He).
    reflexivity.
  - intros ->. split; reflexivity.
Qed.

Lemma get_diagnosis_never_raises_witness :
  snd (get_diagnosis sample_globals timeout_endpoint [] "fever and cough")
  = Ok (VStr ("Error contacting Gemini API:" ++ nl ++ "timeout"))
  /\ str_contains "Error contacting"
       ("Error contacting Gemini API:" ++ nl ++ "timeout") = true
  /\ str_contains "timeout"
       ("Error contacting Gemini API:" ++ nl ++ "timeout") = true.
Proof.
  destruct (get_diagnosis_never_raises sample_globals timeout_endpoint []
              "fever and cough") as (_ & H).
  - intros e He. injection He as <-. reflexivity.
  - destruct (H (mkExn "TimeoutError" "timeout" true) eq_refl) as (H1 & H2).
    split; [exact H1 | exact (H2 eq_refl)].
Defined.

(** C6.  When the response has a [text] attribute that is a string,
    [get_diagnosis] returns that string stripped: what is left after
    removing a leading and a trailing run of whitespace, itself neither
    starting nor ending with whitespace.  A response exposing only
    [text = "Diagnosis: flu"] yields exactly ["Diagnosis: flu"]. *)
Theorem get_diagnosis_direct_text :
  (forall g api w symptoms response t,
      api w (mkRequest (CHOSEN_MODEL g) (prompt symptoms)) = Ok response ->
      py_getattr response "text" VNone = VStr t ->
      snd (get_diagnosis g api w symptoms) = Ok (VStr (strip t))
      /\ exists l r,
           t = (l ++ strip t ++ r)%string
           /\ all_space l = true /\ all_space r = true
           /\ starts_with_space (strip t) = false
           /\ ends_with_space (strip t) = false)
  /\ (forall g api w symptoms cls id,
        api w (mkRequest (CHOSEN_MODEL g) (prompt symptoms))
        = Ok (VObj cls id [("text", VStr "Diagnosis: flu")]) ->
        snd (get_diagnosis g api w symptoms) = Ok (VStr "Diagnosis: flu")).
Proof.
  split.
  - intros g api w symptoms response t Hapi Htext. split.
    + rewrite get_diagnosis_returned, Hapi. cbn [bind]. rewrite Htext.
      reflexivity.
    + apply strip_spec.
  - intros g api w symptoms cls id Hapi.
    rewrite get_diagnosis_returned, Hapi. reflexivity.
Qed.

Lemma get_diagnosis_direct_text_witness :
  snd (get_diagnosis sample_globals (answering padded_response) []
         "fever and cough")
  = Ok (VStr "Diagnosis: flu").
Proof.
  apply (proj1 get_diagnosis_direct_text sample_globals
           (answering padded_response) [] "fever and cough" padded_response
           (String " " (String "009" ("Diagnosis: flu" ++ nl))));
    reflexivity.
Defined.

(** C7 as stated fails: a first candidate whose [text] is a string is not
    enough, because a truthy [content] that is no string is looked at
    instead and the fixed message is returned. *)
Lemma first_candidate_text_not_always_returned :
  ~ (forall g api w symptoms response first rest t,
        api w (mkRequest (CHOSEN_MODEL g) (prompt symptoms)) = Ok response ->
        isinstance_str (py_getattr response "text" VNone) = false ->
        py_getattr response "candidates" VNone = VList (first :: rest) ->
        py_getattr first "text" VNone = VStr t
        \/ py_getattr first "content" VNone = VStr t ->
        snd (get_diagnosis g api w symptoms) = Ok (VStr (strip t))).
Proof.
  intros claim.
  specialize (claim sample_globals (answering shadowed_response) []
                "fever and cough" shadowed_response shadowed_candidate []
                "see a doctor" eq_refl eq_refl eq_refl (or_introl eq_refl)).
  vm_compute in claim. discriminate.
Qed.

(** C7, amended.  When the response has no string [text], its [candidates]
    is a non-empty list and the first candidate offers a usable string (its
    [content] when that is a non-empty string, else its [text] when
    [content] is absent or falsy), [get_diagnosis] returns that string
    stripped.  A first candidate exposing only [content = "see a doctor"]
    yields ["see a doctor"]. *)
Theorem get_diagnosis_first_candidate :
  (forall g api w symptoms response first rest t,
      api w (mkRequest (CHOSEN_MODEL g) (prompt symptoms)) = Ok response ->
      isinstance_str (py_getattr response "text" VNone) = false ->
      py_getattr response "candidates" VNone = VList (first :: rest) ->
      usable first t ->
      snd (get_diagnosis g api w symptoms) = Ok (VStr (strip t)))
  /\ (forall g api w symptoms cls id ccls cid,
        api w (mkRequest (CHOSEN_MODEL g) (prompt symptoms))
        = Ok (VObj cls id
                [("candidates",
                  VList [VObj ccls cid [("content", VStr "see a doctor")]])]) ->
        snd (get_diagnosis g api w symptoms) = Ok (VStr "see a doctor")).
Proof.
  split.
  - intros g api w symptoms response first rest t Hapi Htext Hcands Huse.
    rewrite get_diagnosis_returned, Hapi. cbn [bind]. rewrite Hcands.
    assert (Hpick : py_or (py_getattr first "content" VNone)
                          (py_getattr first "text" VNone) = VStr t).
    { unfold py_or. destruct Huse as [[Hc Hne] | [Hc Ht]].
      - rewrite Hc. simpl. destruct (t =? EmptyString) eqn:E; [|reflexivity].
        apply String.eqb_eq in E. contradiction.
      - rewrite Hc. exact Ht. }
    destruct (py_getattr response "text" VNone); try discriminate;
      simpl; rewrite Hpick; reflexivity.
  - intros g api w symptoms cls id ccls cid Hapi.
    rewrite get_diagnosis_returned, Hapi. reflexivity.
Qed.

Lemma get_diagnosis_first_candidate_witness :
  snd (get_diagnosis sample_globals (answering doctor_response) []
         "fever and cough")
  = Ok (VStr "see a doctor").
Proof.
  apply (proj1 get_diagnosis_first_candidate sample_globals
           (answering doctor_response) [] "fever and cough" doctor_response
           doctor_candidate [] "see a doctor").
  - reflexivity.
  - reflexivity.
  - reflexivity.
  - left. split; [reflexivity | discriminate].
Defined.

(** C8 as stated fails: a response with no string [text] and no first
    candidate at all matches neither shape, yet when its [candidates] is
    truthy and has no length the contact-error string is returned, not the
    fixed message. *)
Lemma unexpected_format_not_for_every_response :
  ~ (forall g api w symptoms response,
        api w (mkRequest (CHOSEN_MODEL g) (prompt symptoms)) = Ok response ->
        isinstance_str (py_getattr response "text" VNone) = false ->
        (forall first rest,
            py_getattr response "candidates" VNone = VList (first :: rest) ->
            forall t, ~ usable first t) ->
        snd (get_diagnosis g api w symptoms)
        = Ok (VStr "Received unexpected response format from Gemini API.")).
Proof.
  intros claim.
  specialize (claim sample_globals (answering flagged_response) []
                "fever and cough" flagged_response eq_refl eq_refl).
  assert (Hrun : snd (get_diagnosis sample_globals
                        (answering flagged_response) [] "fever and cough")
                 = Ok (VStr "Received unexpected response format from Gemini API.")).
  { apply claim. intros first rest Hcands. discriminate Hcands. }
  vm_compute in Hrun. discriminate.
Qed.

(** C8, amended.  When the response has no string [text] and its
    [candidates] is absent, falsy, a string, or a list whose first
    candidate offers no usable string, [get_diagnosis] returns the fixed
    message ["Received unexpected response format from Gemini API."]. *)
Theorem get_diagnosis_unexpected_format :
  forall g api w symptoms response,
    api w (mkRequest (CHOSEN_MODEL g) (prompt symptoms)) = Ok response ->
    isinstance_str (py_getattr response "text" VNone) = false ->
    (truthy (py_getattr response "candidates" VNone) = false
     \/ (exists listed, py_getattr response "candidates" VNone = VStr listed)
     \/ exists first rest,
          py_getattr response "candidates" VNone = VList (first :: rest)
          /\ forall t, ~ usable first t) ->
    snd (get_diagnosis g api w symptoms)
    = Ok (VStr "Received unexpected response format from Gemini API.").
Proof.
  intros g api w symptoms response Hapi Htext Hcands.
  rewrite get_diagnosis_returned, Hapi. cbn [bind].
  assert (Hrest :
            (some <- (if truthy (py_getattr response "candidates" VNone)
                      then n <- py_len (py_getattr response "candidates" VNone) ;;
                           Ok (0 <? n)%nat
                      else Ok false) ;;
             if (some : bool) then
               first <- py_first (py_getattr response "candidates" VNone) ;;
               match py_or (py_getattr first "content" VNone)
                           (py_getattr first "text" VNone) with
               | VStr c => Ok (VStr (strip c))
               | _ => Ok (VStr UNEXPECTED_FORMAT)
               end
             else Ok (VStr UNEXPECTED_FORMAT))
            = Ok (VStr UNEXPECTED_FORMAT)).
  { destruct Hcands as [-> | [(listed & ->) | (first & rest & -> & Hnone)]];
      [reflexivity | destruct listed; reflexivity |].
    simpl. unfold py_or.
    destruct (truthy (py_getattr first "content" VNone)) eqn:Htruthy.
    - destruct (py_getattr first "content" VNone) as [ | | |c| | ] eqn:Hc;
        try reflexivity.
      exfalso. apply (Hnone c). left. split; [exact Hc|].
      intros ->. discriminate.
    - destruct (py_getattr first "text" VNone) as [ | | |c| | ] eqn:Ht;
        try reflexivity.
      exfalso. apply (Hnone c). right. split; [exact Htruthy | exact Ht]. }
  destruct (py_getattr response "text" VNone); try discriminate;
    rewrite Hrest; reflexivity.
Qed.

Lemma get_diagnosis_unexpected_format_witness :
  snd (get_diagnosis sample_globals (answering shadowed_response) []
         "fever and cough")
  = Ok (VStr "Received unexpected response format from Gemini API.").
Proof.
  apply (get_diagnosis_unexpected_format sample_globals
           (answering shadowed_response) [] "fever and cough"
           shadowed_response).
  - reflexivity.
  - reflexivity.
  - right. right. exists shadowed_candidate, []. split; [reflexivity|].
    intros t [[Hc _] | [Hc _]]; discriminate.
Defined.

(** C10.  The two definitions of [get_diagnosis] send the same model and
    differ in the prompt they send; given the same outcome of the generation
    call (any response object or any exception) they return the same
    value. *)
Theorem get_diagnosis_definitions_agree :
  forall g w symptoms (outcome : result value),
    snd (get_diagnosis_first g (fun _ _ => outcome) w symptoms)
    = snd (get_diagnosis g (fun _ _ => outcome) w symptoms)
    /\ fst (get_diagnosis_first g (fun _ _ => outcome) w symptoms)
       = w ++ [mkRequest (CHOSEN_MODEL g) (prompt_first symptoms)]
    /\ fst (get_diagnosis g (fun _ _ => outcome) w symptoms)
       = w ++ [mkRequest (CHOSEN_MODEL g) (prompt symptoms)]
    /\ prompt_first symptoms <> prompt symptoms.
Proof.
  intros g w symptoms outcome. repeat split.
  unfold prompt_first, prompt. simpl. discriminate.
Qed.

(** * Further properties of the model selector *)

(** One turn of the loop on a well-shaped entry. *)
Lemma collect_valid_step (m : value) (rest : list value) (valid : dict) :
  well_shaped m = true ->
  collect_valid (m :: rest) valid =
  collect_valid rest match advertised_name m with
                     | Some n => store_name valid n
                     | None => valid
                     end.
Proof.
  intros Hm. unfold well_shaped in Hm. apply andb_prop in Hm as [Hname Hmeth].
  rewrite collect_valid_cons. unfold advertised_name, store_name.
  destruct (entry_methods m) as [ | | | |items| ]; try discriminate;
    (destruct (entry_name m) as [ | | |n| | ]; try discriminate);
    simpl; try reflexivity;
    (destruct (n =? EmptyString); simpl; try reflexivity).
  destruct items as [|x xs]; [reflexivity|].
  cbv beta iota delta [bind].
  destruct (existsb (str_eq_value "generateContent") (x :: xs)); reflexivity.
Qed.

(** The dictionary the loop builds: the supported names stored in catalog
    order. *)
Lemma collect_valid_closed (available : list value) :
  forall valid,
    forallb well_shaped available = true ->
    collect_valid available valid
    = Ok (fold_left store_name (supported_set available) valid).
Proof.
  induction available as [|m rest IH]; intros valid Hws; [reflexivity|].
  simpl in Hws. apply andb_prop in Hws as [Hm Hrest].
  rewrite (collect_valid_step _ _ _ Hm), supported_set_cons, fold_left_app.
  rewrite (IH _ Hrest). destruct (advertised_name m); reflexivity.
Qed.

Lemma fold_store_head (names : list string) :
  forall k v valid,
  exists v' valid',
    fold_left store_name names ((k, v) :: valid) = (k, v') :: valid'.
Proof.
  induction names as [|n rest IH]; intros k v valid; simpl; [eauto|].
  unfold store_name at 2. simpl.
  destruct (key_eqb k (VStr n)); apply IH.
Qed.

Lemma no_preferred_found (available : list value) (valid : dict) :
  forallb well_shaped available = true ->
  collect_valid available [] = Ok valid ->
  (forall p, In p PREFERRED_MODELS -> ~ In p (supported_set available)) ->
  find (dict_has valid) PREFERRED_MODELS = None.
Proof.
  intros Hws Hrun Hnone.
  destruct (valid_keys available Hws) as (valid' & Hrun' & Hhas & _).
  rewrite Hrun in Hrun'. injection Hrun' as <-.
  destruct (find (dict_has valid) PREFERRED_MODELS) as [p|] eqn:Hfind;
    [|reflexivity].
  apply find_some in Hfind. destruct Hfind as (Hp & Hin).
  apply Hhas in Hin. now apply Hnone in Hin.
Qed.

(** X1.  When no preferred identifier is supported, the model returned is
    the first supported one in catalog order ("pick first that has
    generateContent", line 52). *)
Theorem choose_best_model_fallback_is_first :
  forall available n others,
    forallb well_shaped available = true ->
    (forall p, In p PREFERRED_MODELS -> ~ In p (supported_set available)) ->
    supported_set available = n :: others ->
    choose_best_model (Ok (complete available)) = Ok (VStr n).
Proof.
  intros available n others Hws Hnone Hsup.
  pose proof (collect_valid_closed available [] Hws) as Hrun.
  rewrite (choose_best_model_ok _ _ Hrun).
  rewrite (no_preferred_found _ _ Hws Hrun Hnone).
  rewrite Hsup. simpl fold_left.
  change (store_name [] n) with [(VStr n, VBool true)].
  destruct (fold_store_head others (VStr n) (VBool true) [])
    as (v' & valid' & Hhead).
  rewrite Hhead. reflexivity.
Qed.

Lemma choose_best_model_fallback_is_first_witness :
  choose_best_model (Ok (complete legacy_catalog)) = Ok (VStr "models/gemini-1.0-pro").
Proof.
  apply (choose_best_model_fallback_is_first legacy_catalog
           "models/gemini-1.0-pro" ["models/gemini-pro-vision"]).
  - reflexivity.
  - intros p Hp Hin. simpl in Hp, Hin. intuition (subst; discriminate).
  - reflexivity.
Defined.

Lemma supported_set_filter (available : list value) :
  supported_set (filter is_supported available) = supported_set available.
Proof.
  induction available as [|m rest IH]; [reflexivity|].
  simpl filter. unfold is_supported at 1.
  destruct (advertised_name m) as [n|] eqn:Hn.
  - rewrite !supported_set_cons, Hn, IH. reflexivity.
  - rewrite supported_set_cons, Hn, IH. reflexivity.
Qed.

(** X2.  Entries that are not supported (no name, an empty name, no
    capability attribute, or one without [generateContent]) have no
    influence on the choice: dropping them from the catalog leaves the
    result unchanged. *)
Theorem choose_best_model_ignores_unsupported :
  forall available,
    forallb well_shaped available = true ->
    choose_best_model (Ok (complete (filter is_supported available)))
    = choose_best_model (Ok (complete available)).
Proof.
  intros available Hws.
  assert (Hws' : forallb well_shaped (filter is_supported available) = true).
  { rewrite forallb_forall in *. intros m Hm. apply filter_In in Hm.
    apply Hws, Hm. }
  rewrite (choose_best_model_ok _ _ (collect_valid_closed _ [] Hws)).
  rewrite (choose_best_model_ok _ _ (collect_valid_closed _ [] Hws')).
  rewrite supported_set_filter. reflexivity.
Qed.

Lemma choose_best_model_ignores_unsupported_witness :
  choose_best_model (Ok (complete (filter is_supported sample_catalog)))
  = choose_best_model (Ok (complete sample_catalog)).
Proof.
  apply (choose_best_model_ignores_unsupported sample_catalog). reflexivity.
Defined.

Lemma dict_store_truthy (valid : dict) (k v : value) :
  truthy k = true ->
  Forall (fun kv => truthy (fst kv) = true) valid ->
  Forall (fun kv => truthy (fst kv) = true) (dict_store valid k v).
Proof.
  intros Hk Hvalid. induction Hvalid as [|(k', v') rest Hk' Hrest IH]; simpl.
  - repeat constructor. exact Hk.
  - destruct (key_eqb k' k); constructor; auto.
Qed.

(** On tolerated entries the loop never raises, and every key it stores
    is truthy. *)
Lemma collect_valid_tolerated (available : list value) :
  forall valid,
    forallb tolerated available = true ->
    Forall (fun kv => truthy (fst kv) = true) valid ->
    exists valid',
      collect_valid available valid = Ok valid'
      /\ Forall (fun kv => truthy (fst kv) = true) valid'.
Proof.
  induction available as [|m rest IH]; intros valid Htol Hvalid.
  - exists valid. split; [reflexivity | exact Hvalid].
  - simpl in Htol. apply andb_prop in Htol as [Hm Hrest].
    rewrite collect_valid_cons. unfold tolerated in Hm.
    destruct (truthy (entry_name m)) eqn:Hname; simpl; [|now apply IH].
    destruct (truthy (entry_methods m)) eqn:Hmeth; simpl in *;
      [|now apply IH].
    destruct (entry_methods m) as [ | | |s|items| ]; try discriminate;
      simpl; (match goal with
              | |- context [if ?b then _ else _] => destruct b
              end; [|now apply IH]);
      unfold dict_setitem; rewrite Hm; simpl;
      apply IH; auto using dict_store_truthy.
Qed.

(** X3.  [choose_best_model] raises nothing and returns a truthy value
    (never [None], never an empty string) on every catalog whose entries
    each have a falsy name, a falsy capability attribute, or a string or
    list as capability attribute together with a hashable name. *)
Theorem choose_best_model_tolerant :
  forall available,
    forallb tolerated available = true ->
    exists chosen,
      choose_best_model (Ok (complete available)) = Ok chosen
      /\ truthy chosen = true.
Proof.
  intros available Htol.
  destruct (collect_valid_tolerated available [] Htol (Forall_nil _))
    as (valid & Hrun & Hkeys).
  rewrite (choose_best_model_ok _ _ Hrun).
  destruct (find (dict_has valid) PREFERRED_MODELS) as [p|] eqn:Hfind.
  - exists (VStr p). split; [reflexivity|].
    apply find_some in Hfind. destruct Hfind as (Hp & _).
    apply preferred_nonempty in Hp. simpl.
    destruct (p =? EmptyString) eqn:E; [|reflexivity].
    apply String.eqb_eq in E. contradiction.
  - destruct valid as [|(k, v) rest].
    + eexists. split; reflexivity.
    + exists k. split; [reflexivity|]. now inversion Hkeys.
Qed.

Lemma choose_best_model_tolerant_witness :
  exists chosen,
    choose_best_model (Ok (complete odd_catalog)) = Ok chosen
    /\ truthy chosen = true.
Proof.
  apply (choose_best_model_tolerant odd_catalog). reflexivity.
Defined.

(** * Start-up *)




(** * Further properties of the diagnosis requester *)

(** ** Blank and padded texts *)

Lemma lstrip_all_space (s : string) :
  all_space s = true -> lstrip s = EmptyString.
Proof.
  induction s as [|c rest IH]; simpl; [reflexivity|].
  destruct (is_space c); simpl; [exact IH | discriminate].
Qed.

Lemma rstrip_all_space (s : string) :
  all_space s = true -> rstrip s = EmptyString.
Proof.
  induction s as [|c rest IH]; simpl; [reflexivity|].
  destruct (is_space c); simpl; [|discriminate].
  intros Hrest. rewrite (IH Hrest). reflexivity.
Qed.

Lemma strip_blank (s : string) :
  all_space s = true -> strip s = EmptyString.
Proof.
  intros Hs. unfold strip. rewrite (lstrip_all_space _ Hs). reflexivity.
Qed.

Lemma lstrip_non_blank (s : string) :
  all_space s = false ->
  exists c rest, lstrip s = String c rest /\ is_space c = false.
Proof.
  induction s as [|c rest IH]; simpl; [discriminate|].
  destruct (is_space c) eqn:Hc; simpl; [exact IH | eauto].
Qed.

Lemma strip_non_blank (s : string) :
  all_space s = false -> strip s <> EmptyString.
Proof.
  intros Hs. unfold strip.
  destruct (lstrip_non_blank s Hs) as (c & rest & -> & Hc). simpl.
  destruct (rstrip rest); [rewrite Hc|]; discriminate.
Qed.

Lemma lstrip_app_space (l s : string) :
  all_space l = true -> lstrip (l ++ s) = lstrip s.
Proof.
  induction l as [|c l IH]; simpl; [reflexivity|].
  destruct (is_space c); simpl; [exact IH | discriminate].
Qed.

Lemma rstrip_app_space (s r : string) :
  all_space r = true -> rstrip (s ++ r) = rstrip s.
Proof.
  intros Hr. induction s as [|c s IH]; simpl.
  - now apply rstrip_all_space.
  - rewrite IH. reflexivity.
Qed.

Lemma strip_app_space (e r : string) :
  all_space r = true -> strip (e ++ r) = strip e.
Proof.
  intros Hr. unfold strip. induction e as [|c e IH]; simpl.
  - rewrite (lstrip_all_space _ Hr). reflexivity.
  - destruct (is_space c); [exact IH|].
    change (String c (e ++ r)) with (String c e ++ r)%string.
    now apply rstrip_app_space.
Qed.

Lemma strip_pad (l e r : string) :
  all_space l = true -> all_space r = true ->
  strip (l ++ e ++ r) = strip e.
Proof.
  intros Hl Hr. unfold strip. rewrite (lstrip_app_space _ _ Hl).
  now apply strip_app_space.
Qed.

(** ** The callback *)

(** On an entry that is not blank one request is sent, whatever the
    endpoint does. *)
Lemma diagnose_non_blank_sent (api : endpoint) (a : app) (entered : string) :
  all_space entered = false ->
  sent (diagnose api a entered)
  = sent a ++ [mkRequest (CHOSEN_MODEL (app_globals a))
                         (prompt (strip entered))].
Proof.
  intros Hne. pose proof (strip_non_blank _ Hne) as Hs.
  unfold diagnose. simpl truthy.
  destruct (strip entered =? EmptyString) eqn:E;
    [apply String.eqb_eq in E; contradiction|].
  simpl negb. cbv iota. unfold get_diagnosis, generate_content.
  match goal with
  | |- context [try_except ?b ?h] => destruct (try_except b h) as [[]|]
  end; reflexivity.
Qed.

(** The state the callback leaves, from what [get_diagnosis] gives. *)
Lemma diagnose_non_blank (api : endpoint) (a : app) (entered : string) :
  all_space entered = false ->
  diagnose api a entered
  = match snd (get_diagnosis (app_globals a) api (sent a) (strip entered)) with
    | Ok (VStr shown) =>
        mkApp (app_globals a) shown
              (sent a ++ [mkRequest (CHOSEN_MODEL (app_globals a))
                                    (prompt (strip entered))])
    | _ =>
        mkApp (app_globals a) (output_box a)
              (sent a ++ [mkRequest (CHOSEN_MODEL (app_globals a))
                                    (prompt (strip entered))])
    end.
Proof.
  intros Hne. pose proof (strip_non_blank _ Hne) as Hs.
  unfold diagnose. simpl truthy.
  destruct (strip entered =? EmptyString) eqn:E;
    [apply String.eqb_eq in E; contradiction|].
  simpl negb. cbv iota. unfold get_diagnosis, generate_content.
  cbn [snd]. reflexivity.
Qed.

(** X5.  A blank entry (empty or all whitespace) has no effect: nothing is
    sent to the endpoint and the output box keeps its text. *)
Theorem diagnose_blank_is_ignored :
  forall api a entered,
    all_space entered = true -> diagnose api a entered = a.
Proof.
  intros api a entered Hblank. unfold diagnose.
  rewrite (strip_blank _ Hblank). reflexivity.
Qed.

Lemma diagnose_blank_is_ignored_witness :
  diagnose timeout_endpoint (mkApp sample_globals "ready" [])
           (String " " (String "009" nl))
  = mkApp sample_globals "ready" [].
Proof.
  apply (diagnose_blank_is_ignored timeout_endpoint
           (mkApp sample_globals "ready" []) (String " " (String "009" nl))).
  reflexivity.
Defined.

(** X6.  A session sends exactly one generation request for each entered
    text that is not blank, whatever the endpoint answers: no retry, no
    request for blank input, no request saved for a repeated text. *)
Theorem run_session_request_count :
  forall api entered a,
    List.length (sent (run_session api a entered))
    = List.length (sent a) + List.length (non_blank entered).
Proof.
  intros api entered. unfold run_session, non_blank.
  induction entered as [|e rest IH]; intros a; simpl; [lia|].
  rewrite IH. destruct (all_space e) eqn:He; simpl.
  - unfold diagnose at 1. rewrite (strip_blank _ He). simpl. lia.
  - rewrite (diagnose_non_blank_sent api a e He).
    rewrite length_app. simpl. lia.
Qed.

(** X7.  On an entry that is not blank the callback sends one request,
    for the stripped text and the chosen model.  When the endpoint answers
    or raises an [Exception], the content of the output box is replaced by
    the string [get_diagnosis] returned; when it raises an exception that
    is no [Exception], that exception leaves [get_diagnosis] and the box
    keeps its text. *)
Theorem diagnose_shows_result :
  forall api a entered,
    all_space entered = false ->
    let request := mkRequest (CHOSEN_MODEL (app_globals a))
                             (prompt (strip entered)) in
    let returned :=
      snd (get_diagnosis (app_globals a) api (sent a) (strip entered)) in
    sent (diagnose api a entered) = sent a ++ [request]
    /\ ((forall e, api (sent a) request = Raise e -> is_Exception e = true) ->
        exists shown,
          returned = Ok (VStr shown)
          /\ output_box (diagnose api a entered) = shown)
    /\ (forall e,
          api (sent a) request = Raise e -> is_Exception e = false ->
          returned = Raise e
          /\ output_box (diagnose api a entered) = output_box a).
Proof.
  intros api a entered Hne request returned. subst request returned.
  split; [now apply diagnose_non_blank_sent|]. split.
  - intros Hapi.
    destruct (get_diagnosis_string (app_globals a) api (sent a)
                (strip entered) Hapi) as (shown & Hshown).
    exists shown. split; [exact Hshown|].
    rewrite (diagnose_non_blank api a entered Hne), Hshown. reflexivity.
  - intros e He Hbase.
    assert (Hrun : snd (get_diagnosis (app_globals a) api (sent a)
                          (strip entered)) = Raise e).
    { rewrite get_diagnosis_returned, He. simpl. rewrite Hbase.
      reflexivity. }
    split; [exact Hrun|].
    rewrite (diagnose_non_blank api a entered Hne), Hrun. reflexivity.
Qed.

Lemma diagnose_shows_result_witness :
  (exists shown,
      snd (get_diagnosis sample_globals (answering padded_response) []
             (strip (" fever" ++ nl)))
      = Ok (VStr shown)
      /\ output_box (diagnose (answering padded_response)
                              (mkApp sample_globals "ready" [])
                              (" fever" ++ nl)) = shown)
  /\ output_box (diagnose interrupted_endpoint
                          (mkApp sample_globals "ready" [])
                          (" fever" ++ nl)) = "ready".
Proof.
  split.
  - apply (proj1 (proj2 (diagnose_shows_result (answering padded_response)
                           (mkApp sample_globals "ready" [])
                           (" fever" ++ nl) eq_refl))).
    intros e He. discriminate He.
  - apply (proj2 (proj2 (diagnose_shows_result interrupted_endpoint
                           (mkApp sample_globals "ready" [])
                           (" fever" ++ nl) eq_refl))
             KeyboardInterrupt);
      reflexivity.
Defined.

(** X8.  Whitespace around the entered text never matters: padding an
    entry with whitespace on either side gives the same requests and the
    same output. *)
Theorem diagnose_ignores_padding :
  forall api a l entered r,
    all_space l = true -> all_space r = true ->
    diagnose api a (l ++ entered ++ r) = diagnose api a entered.
Proof.
  intros api a l entered r Hl Hr. unfold diagnose.
  rewrite (strip_pad _ _ _ Hl Hr). reflexivity.
Qed.

Lemma diagnose_ignores_padding_witness :
  diagnose (answering padded_response) (mkApp sample_globals "ready" [])
           ("  " ++ "fever" ++ nl)
  = diagnose (answering padded_response) (mkApp sample_globals "ready" [])
             "fever".
Proof.
  apply (diagnose_ignores_padding (answering padded_response)
           (mkApp sample_globals "ready" []) "  " "fever" nl);
    reflexivity.
Defined.

(** X9.  Every request a session sends carries the prompt built from a
    text that is non-empty and neither starts nor ends with whitespace. *)
Theorem run_session_requests_clean :
  forall api entered a,
    Forall clean_request (sent a) ->
    Forall clean_request (sent (run_session api a entered)).
Proof.
  intros api entered. unfold run_session.
  induction entered as [|e rest IH]; intros a Hsent; simpl; [exact Hsent|].
  apply IH. destruct (all_space e) eqn:He.
  - unfold diagnose. rewrite (strip_blank _ He). exact Hsent.
  - rewrite (diagnose_non_blank_sent api a e He).
    apply Forall_app. split; [exact Hsent|].
    constructor; [|constructor].
    exists (strip e). simpl. split; [reflexivity|].
    split; [now apply strip_non_blank|].
    destruct (strip_spec e) as (l & r & _ & _ & _ & Hstart & Hend). auto.
Qed.

Lemma run_session_requests_clean_witness :
  Forall clean_request
    (sent (run_session timeout_endpoint (mkApp sample_globals "ready" [])
             [" fever "; "   "; ("cough" ++ nl)%string])).
Proof.
  apply (run_session_requests_clean timeout_endpoint
           [" fever "; "   "; ("cough" ++ nl)%string]
           (mkApp sample_globals "ready" [])).
  constructor.
Defined.

(** ** The prompt *)

Lemma prefix_append (s t : string) : String.prefix s (s ++ t) = true.
Proof.
  induction s as [|c s IH]; simpl; [destruct t; reflexivity|].
  destruct (ascii_dec c c) as [_|Hc]; [exact IH | contradiction].
Qed.

Lemma str_contains_unfold (needle haystack : string) :
  str_contains needle haystack
  = String.prefix needle haystack
    || match haystack with
       | EmptyString => false
       | String _ rest => str_contains needle rest
       end.
Proof. destruct haystack; reflexivity. Qed.

Lemma str_contains_middle (pre s post : string) :
  str_contains s (pre ++ s ++ post) = true.
Proof.
  induction pre as [|c pre IH].
  - rewrite str_contains_unfold. simpl append. rewrite prefix_append.
    reflexivity.
  - rewrite str_contains_unfold. simpl append. cbv iota. rewrite IH.
    apply orb_true_r.
Qed.

Lemma prompt_shape :
  exists footer,
    forall symptoms,
      prompt symptoms
      = ((nl ++ "You are a medical assistant. The user reports the following symptoms: ")
           ++ symptoms ++ footer)%string.
Proof.
  eexists. intros symptoms. unfold prompt. simpl. reflexivity.
Qed.

(** X10.  The prompt in force is a fixed header, the symptom text exactly
    as given (no escaping, no truncation), and a fixed footer; so the text
    occurs verbatim in what is sent. *)
Theorem prompt_embeds_symptoms :
  exists header footer,
    forall symptoms,
      prompt symptoms = (header ++ symptoms ++ footer)%string
      /\ str_contains symptoms (prompt symptoms) = true.
Proof.
  destruct prompt_shape as (footer & Hshape).
  eexists. exists footer. intros symptoms.
  split; [apply Hshape|].
  rewrite Hshape. apply str_contains_middle.
Qed.

(** ** What the answer looks like *)

Lemma ends_with_space_append (a b : string) :
  b <> EmptyString -> ends_with_space (a ++ b) = ends_with_space b.
Proof.
  intros Hb. induction a as [|c a IH]; simpl; [reflexivity|].
  destruct (a ++ b)%string eqn:E; [|exact IH].
  destruct a; simpl in E; [contradiction | discriminate].
Qed.

Lemma len_error_clean (tn : string) :
  let shown := error_text
                 (TypeError ("object of type '" ++ tn ++ "' has no len()")) in
  starts_with_space shown = false /\ ends_with_space shown = false.
Proof.
  split; [reflexivity|].
  change (ends_with_space
            (("Error contacting Gemini API:" ++ nl ++ "object of type '")
               ++ tn ++ "' has no len()") = false).
  rewrite ends_with_space_append.
  - rewrite ends_with_space_append; [reflexivity | discriminate].
  - destruct tn; discriminate.
Qed.

(** X11.  Whenever the endpoint answers with a response, of whatever shape,
    the string returned neither starts nor ends with whitespace. *)
Theorem get_diagnosis_answer_is_trimmed :
  forall g api w symptoms response,
    api w (mkRequest (CHOSEN_MODEL g) (prompt symptoms)) = Ok response ->
    exists shown,
      snd (get_diagnosis g api w symptoms) = Ok (VStr shown)
      /\ starts_with_space shown = false
      /\ ends_with_space shown = false.
Proof.
  intros g api w symptoms response Hapi.
  rewrite get_diagnosis_returned, Hapi. cbn [bind].
  assert (Hstrip : forall t, exists shown,
             Ok (VStr (strip t)) = Ok (VStr shown)
             /\ starts_with_space shown = false
             /\ ends_with_space shown = false).
  { intros t. exists (strip t).
    destruct (strip_spec t) as (l & r & _ & _ & _ & Hs & He). auto. }
  assert (Hfixed : exists shown,
             Ok (VStr UNEXPECTED_FORMAT) = Ok (VStr shown)
             /\ starts_with_space shown = false
             /\ ends_with_space shown = false).
  { eexists. repeat split. }
  assert (Hlen : forall tn, exists shown,
             Ok (VStr (error_text
                     (TypeError ("object of type '" ++ tn ++ "' has no len()"))))
             = Ok (VStr shown)
             /\ starts_with_space shown = false
             /\ ends_with_space shown = false).
  { intros tn. eexists. split; [reflexivity | apply len_error_clean]. }
  destruct (py_getattr response "text" VNone) as [ | | |t| | ];
    try apply Hstrip;
    (destruct (py_getattr response "candidates" VNone)
       as [ |cb|cn|cs|citems|ccls cid cattrs];
     [ exact Hfixed
     | destruct cb; [apply (Hlen "bool") | exact Hfixed]
     | simpl truthy; destruct (cn =? 0)%Z;
       [exact Hfixed | apply (Hlen "int")]
     | destruct cs; [exact Hfixed | exact Hfixed]
     | destruct citems as [|first rest]; [exact Hfixed|];
       simpl; destruct (py_or _ _); solve [exact Hfixed | apply Hstrip]
     | apply (Hlen ccls) ]).
Qed.

Lemma get_diagnosis_answer_is_trimmed_witness :
  exists shown,
    snd (get_diagnosis sample_globals (answering flagged_response) []
           "fever and cough") = Ok (VStr shown)
    /\ starts_with_space shown = false
    /\ ends_with_space shown = false.
Proof.
  apply (get_diagnosis_answer_is_trimmed sample_globals
           (answering flagged_response) [] "fever and cough"
           flagged_response).
  reflexivity.
Defined.

(** X12.  A response without string text whose [candidates] is truthy but
    has no length (a flag, a number, a plain object) is not reported as an
    unexpected format: the [TypeError] of [len] is caught and the string
    returned is the contact-error message carrying it. *)
Theorem get_diagnosis_unsized_candidates :
  forall g api w symptoms response,
    api w (mkRequest (CHOSEN_MODEL g) (prompt symptoms)) = Ok response ->
    isinstance_str (py_getattr response "text" VNone) = false ->
    truthy (py_getattr response "candidates" VNone) = true ->
    match py_getattr response "candidates" VNone with
    | VStr _ | VList _ => False
    | _ => True
    end ->
    snd (get_diagnosis g api w symptoms)
    = Ok (VStr ("Error contacting Gemini API:" ++ nl ++ "object of type '"
                ++ type_name (py_getattr response "candidates" VNone)
                ++ "' has no len()")).
Proof.
  intros g api w symptoms response Hapi Htext Htruthy Hshape.
  rewrite get_diagnosis_returned, Hapi. cbn [bind]. rewrite Htruthy.
  destruct (py_getattr response "candidates" VNone); try contradiction;
    try discriminate;
    (destruct (py_getattr response "text" VNone); try discriminate;
     reflexivity).
Qed.

Lemma get_diagnosis_unsized_candidates_witness :
  snd (get_diagnosis sample_globals (answering flagged_response) []
         "fever and cough")
  = Ok (VStr ("Error contacting Gemini API:" ++ nl
              ++ "object of type 'int' has no len()")).
Proof.
  apply (get_diagnosis_unsized_candidates sample_globals
           (answering flagged_response) [] "fever and cough"
           flagged_response).
  - reflexivity.
  - reflexivity.
  - reflexivity.
  - exact I.
Defined.
